(** * llm-prompt-ui: the route handler [GET /api/users/[id]/posts]

    A shallow embedding of [src/app/api/users/[id]/posts/route.js].

    The handler is an [async] function with one [try]/[catch]: it awaits
    [connectToDB()], awaits the Mongoose query
    [Prompt.find({ creator: params.id }).populate("creator")], serializes
    the documents with [JSON.stringify] and wraps the text in a [Response].
    Awaited calls thread the state of the outside world and may throw, so
    the handler is written in a small state-and-exception monad.  The two
    imported modules ([@utlis/database], [@models/prompt]) are an interface
    ([Collaborators]); the handler is verified against every implementation
    of it, and against one document store modelled from the specification. *)

From Stdlib Require Import String Ascii List ZArith Bool Lia.
From Stdlib Require Import DecimalString.
Import ListNotations.
Local Open Scope string_scope.
Local Open Scope Z_scope.

Set Implicit Arguments.
Set Warnings "-register-all".

(* ================================================================== *)
(** ** JSON values and [JSON.stringify] *)
(* ================================================================== *)

Module Json.

(** The values a document holds once [toJSON] has been applied.  Numbers
    are the integral ones (version counters and the like), which
    JavaScript prints in decimal. *)
Inductive JSON : Type :=
| JNull
| JBool (b : bool)
| JNum (n : Z)
| JStr (s : string)
| JArr (elems : list JSON)
| JObj (fields : list (string * JSON)).

Definition dquote : ascii := ascii_of_nat 34.
Definition backslash : ascii := ascii_of_nat 92.

Definition hex_digit (n : nat) : ascii :=
  if Nat.ltb n 10 then ascii_of_nat (48 + n) else ascii_of_nat (87 + n).

(** One code unit of a quoted JSON string (ECMAScript [QuoteJSONString]). *)
Definition quote_char (c : ascii) : string :=
  let n := nat_of_ascii c in
  if Nat.eqb n 34 then String backslash (String dquote EmptyString)
  else if Nat.eqb n 92 then String backslash (String backslash EmptyString)
  else if Nat.eqb n 8 then String backslash "b"
  else if Nat.eqb n 9 then String backslash "t"
  else if Nat.eqb n 10 then String backslash "n"
  else if Nat.eqb n 12 then String backslash "f"
  else if Nat.eqb n 13 then String backslash "r"
  else if Nat.ltb n 32 then
    String backslash
      ("u00" ++ String (hex_digit (Nat.div n 16))
                  (String (hex_digit (Nat.modulo n 16)) EmptyString))
  else String c EmptyString.

Fixpoint quote_chars (s : string) : string :=
  match s with
  | EmptyString => EmptyString
  | String c rest => quote_char c ++ quote_chars rest
  end.

Definition quote (s : string) : string :=
  String dquote (quote_chars s ++ String dquote EmptyString).

Definition number_to_string (n : Z) : string :=
  NilZero.string_of_int (Z.to_int n).

(** [JSON.stringify] on a value, without indentation. *)
Fixpoint stringify (v : JSON) : string :=
  match v with
  | JNull => "null"
  | JBool true => "true"
  | JBool false => "false"
  | JNum n => number_to_string n
  | JStr s => quote s
  | JArr elems => "[" ++ String.concat "," (map stringify elems) ++ "]"
  | JObj fields =>
      "{" ++ String.concat ","
               (map (fun kv => quote (fst kv) ++ ":" ++ stringify (snd kv)) fields)
          ++ "}"
  end.

(** Property access [doc[key]] on an object given by its fields. *)
Fixpoint get_field (key : string) (fields : list (string * JSON)) : option JSON :=
  match fields with
  | [] => None
  | (k, v) :: rest => if String.eqb k key then Some v else get_field key rest
  end.

(** Assignment [doc[key] = v] to a property the object already has. *)
Fixpoint set_field (key : string) (v : JSON) (fields : list (string * JSON))
  : list (string * JSON) :=
  match fields with
  | [] => []
  | (k, old) :: rest =>
      if String.eqb k key then (k, v) :: rest
      else (k, old) :: set_field key v rest
  end.

End Json.
Import Json.

(* ================================================================== *)
(** ** The [Response] of the Fetch API *)
(* ================================================================== *)

Module Http.

(** The second argument of [new Response(body, init)]. *)
Record ResponseInit : Type := {
  init_status : Z;
  init_headers : list (string * string)
}.

Record Response : Type := {
  body : string;
  status : Z;
  headers : list (string * string)
}.

Definition lower_char (c : ascii) : ascii :=
  let n := nat_of_ascii c in
  if andb (Nat.leb 65 n) (Nat.leb n 90) then ascii_of_nat (n + 32) else c.

Fixpoint lower (s : string) : string :=
  match s with
  | EmptyString => EmptyString
  | String c rest => String (lower_char c) (lower rest)
  end.

(** [headers.get(name)]: header names compare without case. *)
Fixpoint header_get (name : string) (hs : list (string * string)) : option string :=
  match hs with
  | [] => None
  | (k, v) :: rest =>
      if String.eqb (lower k) (lower name) then Some v else header_get name rest
  end.

(** The type the Fetch standard extracts from a body given as a string. *)
Definition string_body_type : string := "text/plain;charset=UTF-8".

(** [new Response(body, init)] for a string body: the status and the
    headers of [init] are taken over, and a [Content-Type] is appended
    from the body's type when [init] names none.  (The constructor rejects
    statuses outside 200..599; the handler passes 200 and 500.) *)
Definition new_Response (body : string) (init : ResponseInit) : Response :=
  {| body := body;
     status := init_status init;
     headers :=
       match header_get "Content-Type" (init_headers init) with
       | Some _ => init_headers init
       | None => init_headers init ++ [("content-type", string_body_type)]
       end |}.

(** The incoming request; the handler receives it as [req]. *)
Record Request : Type := {
  method : string;
  url : string;
  req_headers : list (string * string);
  req_body : option string
}.

(** The route parameters of [/api/users/[id]/posts] and the context
    object [{ params }] the framework passes as second argument. *)
Record Params : Type := { id : string }.
Record Context : Type := { params : Params }.

End Http.
Import Http.

(* ================================================================== *)
(** ** Awaited calls: state of the world and thrown exceptions *)
(* ================================================================== *)

Module Eff.

(** A thrown JavaScript error. *)
Record Exn : Type := { name : string; message : string }.

Inductive Res (A : Type) : Type :=
| Ok (a : A)
| Throw (e : Exn).
Arguments Ok {A} a.
Arguments Throw {A} e.

(** A computation runs in a world [W]; a throw keeps the world reached. *)
Definition M (W A : Type) : Type := W -> Res A * W.

Definition ret {W A} (a : A) : M W A := fun w => (Ok a, w).

Definition throw {W A} (e : Exn) : M W A := fun w => (Throw e, w).

Definition bind {W A B} (m : M W A) (k : A -> M W B) : M W B :=
  fun w =>
    match m w with
    | (Ok a, w') => k a w'
    | (Throw e, w') => (Throw e, w')
    end.

(** [try { m } catch (error) { h error }] *)
Definition try_catch {W A} (m : M W A) (h : Exn -> M W A) : M W A :=
  fun w =>
    match m w with
    | (Ok a, w') => (Ok a, w')
    | (Throw e, w') => h e w'
    end.

(** A call that touches no state: returns or throws. *)
Definition lift {W A} (r : Res A) : M W A := fun w => (r, w).

End Eff.
Import Eff.

Declare Scope js_scope.
Delimit Scope js_scope with js.
Notation "x <- m ;; k" := (bind m (fun x => k))
  (at level 100, m at next level, right associativity) : js_scope.
Notation "'await' m ;; k" := (bind m (fun _ => k))
  (at level 100, m at next level, right associativity) : js_scope.
Local Open Scope js_scope.

(* ================================================================== *)
(** ** The handler and the modules it imports *)
(* ================================================================== *)

Module Mongoose.

(** A query under construction: [Prompt.find(filter)] starts one with the
    filter's fields, each an equality on a string, [.populate(path)] adds a
    path to dereference.  Nothing runs until the query is awaited. *)
Record Query : Type := {
  conditions : list (string * string);
  populated : list string
}.

Definition Prompt_find (filter : list (string * string)) : Query :=
  {| conditions := filter; populated := [] |}.

Definition populate (q : Query) (path : string) : Query :=
  {| conditions := conditions q; populated := populated q ++ [path] |}.

End Mongoose.
Import Mongoose.

(** What [route.js] imports: [connectToDB] from [@utlis/database], the
    [Prompt] model from [@models/prompt] (awaiting one of its queries runs
    it against the store), and the [toJSON] of the documents a query
    yields, which [JSON.stringify] calls on each of them.  [W] is the
    state of everything outside the handler. *)
Class Collaborators (W Document : Type) : Type := {
  connectToDB : M W unit;
  exec : Query -> M W (list Document);
  toJSON : Document -> Res JSON
}.

Section Handler.

Context {W Document : Type} {imports : Collaborators W Document}.

(** [toJSON] of each document in turn; the first throw aborts. *)
Fixpoint toJSON_all (docs : list Document) : Res (list JSON) :=
  match docs with
  | [] => Ok []
  | d :: rest =>
      match toJSON d with
      | Throw e => Throw e
      | Ok v =>
          match toJSON_all rest with
          | Throw e => Throw e
          | Ok vs => Ok (v :: vs)
          end
      end
  end.

(** [JSON.stringify(prompts)] on the array of documents. *)
Definition JSON_stringify (prompts : list Document) : Res string :=
  match toJSON_all prompts with
  | Throw e => Throw e
  | Ok vs => Ok (stringify (JArr vs))
  end.

(** The body of the [try] block. *)
Definition GET_try (ctx : Context) : M W Response :=
  await connectToDB ;;
  prompts <- exec (populate (Prompt_find [("creator", id (params ctx))]) "creator") ;;
  text <- lift (JSON_stringify prompts) ;;
  ret (new_Response text {| init_status := 200; init_headers := [] |}).

(** The body of the [catch] block. *)
Definition GET_catch (error : Exn) : M W Response :=
  ret (new_Response "Failed to create a new prompt"
         {| init_status := 500; init_headers := [] |}).

(** [export const GET = async (req, { params }) => { try ... catch ... }] *)
Definition GET (req : Request) (ctx : Context) : M W Response :=
  try_catch (GET_try ctx) GET_catch.

End Handler.

(* ================================================================== *)
(** ** The document store *)
(* ================================================================== *)

Module Store.

(** A stored document: the fields of a JSON object, in order. *)
Definition Doc : Type := list (string * JSON).

(** Modelled from the spec: the two collections of the external document
    store, which [@models/prompt] and the user model declare.  An Owner
    ("creator") is a record with a unique identifier [_id]; an Item
    ("prompt") holds the foreign-key field [creator], the identifier of one
    Owner, plus arbitrary content fields. *)
Record Database : Type := {
  users : list Doc;
  prompts : list Doc
}.

(** Modelled from the spec: everything outside the handler.  [isConnected]
    is the process-wide connection ("established once, reused across
    invocations"); [online] tells whether the store can be reached, so that
    connecting or querying can fail. *)
Record World : Type := {
  db : Database;
  isConnected : bool;
  online : bool
}.

Definition connection_error : Exn :=
  {| name := "MongooseServerSelectionError"; message := "connection failed" |}.

Definition query_error : Exn :=
  {| name := "MongooseError"; message := "query failed" |}.

(** The world once the connection is established. *)
Definition connected (w : World) : World :=
  {| db := db w; isConnected := true; online := online w |}.

(** Modelled from the spec: [connectToDB] of [@utlis/database], "acquire
    or ensure a live connection to the document store (idempotent: safe to
    call when already connected; must not error or duplicate connections
    on repeated calls)"; it fails when the connection cannot be
    established. *)
Definition store_connectToDB : M World unit :=
  fun w =>
    if isConnected w then (Ok tt, w)
    else if online w then (Ok tt, connected w)
    else (Throw connection_error, w).

(** Does the field [key] of [d] hold the string [v]? *)
Definition field_is (key v : string) (d : Doc) : bool :=
  match get_field key d with
  | Some (JStr s) => String.eqb s v
  | _ => false
  end.

(** Modelled from the spec: the filter of [find], "all documents where
    the foreign-key field equals id": every condition is an equality. *)
Definition matches (conds : list (string * string)) (d : Doc) : bool :=
  forallb (fun c => field_is (fst c) (snd c) d) conds.

(** Modelled from the spec: the dereference of a foreign-key value, "if it
    resolves, refers to exactly one Owner": the user whose [_id] is that
    identifier.  A value that resolves to no Owner becomes [null] (the
    spec leaves that case open). *)
Definition dereference (owners : list Doc) (v : JSON) : JSON :=
  match v with
  | JStr key =>
      match find (field_is "_id" key) owners with
      | Some owner => JObj owner
      | None => JNull
      end
  | _ => JNull
  end.

(** Modelled from the spec: [populate(field)], "expand the foreign-key
    reference into the full Owner document, replacing the bare identifier
    with the populated Owner record".  [creator] is the one reference an
    Item has; another path names no reference and changes nothing. *)
Definition populate_path (owners : list Doc) (d : Doc) (path : string) : Doc :=
  if String.eqb path "creator" then
    match get_field path d with
    | Some v => set_field path (dereference owners v) d
    | None => d
    end
  else d.

Definition populate_doc (owners : list Doc) (paths : list string) (d : Doc) : Doc :=
  fold_left (populate_path owners) paths d.

(** Modelled from the spec: the documents a query yields, the matching
    Items in the order of the collection, each one populated. *)
Definition run_query (q : Query) (base : Database) : list Doc :=
  map (populate_doc (users base) (populated q))
      (filter (matches (conditions q)) (prompts base)).

(** Modelled from the spec: awaiting a query of the Item collection,
    "find(filter) returning a sequence of matching documents" followed by
    the dereference step.  It reads the store and fails when the store
    cannot answer. *)
Definition store_exec (q : Query) : M World (list Doc) :=
  fun w =>
    if andb (isConnected w) (online w) then (Ok (run_query q (db w)), w)
    else (Throw query_error, w).

(** Modelled from the spec: a document serializes as the JSON object of
    its fields. *)
Definition store_toJSON (d : Doc) : Res JSON := Ok (JObj d).

#[global] Instance store : Collaborators World Doc := {
  connectToDB := store_connectToDB;
  exec := store_exec;
  toJSON := store_toJSON
}.

(** The store replaced from outside the handler, connection kept. *)
Definition with_db (base : Database) (w : World) : World :=
  {| db := base; isConnected := isConnected w; online := online w |}.

(** The Items of the store whose [creator] is [i]. *)
Definition items_of (i : string) (base : Database) : list Doc :=
  filter (field_is "creator" i) (prompts base).

(** The example scenario of the specification. *)
Definition example_db : Database :=
  {| users := [ [("_id", JStr "u1"); ("name", JStr "Alice")] ];
     prompts :=
       [ [("_id", JStr "p1"); ("creator", JStr "u1"); ("content", JStr "hi")];
         [("_id", JStr "p2"); ("creator", JStr "u1"); ("content", JStr "yo")];
         [("_id", JStr "p3"); ("creator", JStr "u2"); ("content", JStr "x")] ] |}.

Definition example_world : World :=
  {| db := example_db; isConnected := false; online := true |}.

Definition offline_world : World :=
  {| db := example_db; isConnected := false; online := false |}.

(** Connected earlier, the store since gone out of reach. *)
Definition stale_world : World :=
  {| db := example_db; isConnected := true; online := false |}.

Definition alice : Doc := [("_id", JStr "u1"); ("name", JStr "Alice")].

End Store.

(* ================================================================== *)
(** ** A recording double of the imported modules *)
(* ================================================================== *)

Module Mock.

(** A call the handler makes on an imported module. *)
Inductive Call : Type :=
| CallConnect
| CallExec (q : Query).

(** The world is the list of calls made so far; each call answers with the
    canned result. *)
Definition mock_connectToDB (answer : Res unit) : M (list Call) unit :=
  fun calls => (answer, (calls ++ [CallConnect])%list).

Definition mock_exec (answer : Res (list JSON)) (q : Query)
  : M (list Call) (list JSON) :=
  fun calls => (answer, (calls ++ [CallExec q])%list).

Definition mock (connected : Res unit) (found : Res (list JSON))
    (serialized : JSON -> Res JSON) : Collaborators (list Call) JSON := {|
  connectToDB := mock_connectToDB connected;
  exec := mock_exec found;
  toJSON := serialized
|}.

End Mock.

Definition a_request : Request :=
  {| method := "GET"; url := "/api/users/u1/posts";
     req_headers := []; req_body := None |}.

Definition another_request : Request :=
  {| method := "POST"; url := "/api/users/u1/posts?x=1";
     req_headers := [("accept", "text/html")]; req_body := Some "ignored" |}.

Definition context_of (i : string) : Context := {| params := {| id := i |} |}.

Definition type_error : Exn :=
  {| name := "TypeError"; message := "Do not know how to serialize" |}.

(** The two responses the handler builds. *)
Definition ok_response (text : string) : Response :=
  new_Response text {| init_status := 200; init_headers := [] |}.

Definition error_response : Response :=
  new_Response "Failed to create a new prompt"
    {| init_status := 500; init_headers := [] |}.

(** The query the handler builds for the route parameter [i]. *)
Definition query_for (i : string) : Query :=
  {| conditions := [("creator", i)]; populated := ["creator"] |}.

Section Outcomes.

Context {W Document : Type} {imports : Collaborators W Document}.

(** The three ways the [try] block of an invocation in world [w] fails:
    while connecting, while querying, while serializing.  The exception and
    the world reached are recorded. *)
Inductive Failure (ctx : Context) (w : W) : Exn -> W -> Prop :=
| ConnectionFailure e w1 :
    connectToDB w = (Throw e, w1) ->
    Failure ctx w e w1
| QueryFailure w1 e w2 :
    connectToDB w = (Ok tt, w1) ->
    exec (query_for (id (params ctx))) w1 = (Throw e, w2) ->
    Failure ctx w e w2
| SerializationFailure w1 docs w2 e :
    connectToDB w = (Ok tt, w1) ->
    exec (query_for (id (params ctx))) w1 = (Ok docs, w2) ->
    JSON_stringify docs = Throw e ->
    Failure ctx w e w2.

(** The run in which nothing fails: the documents found and their text. *)
Inductive Success (ctx : Context) (w : W) : list Document -> string -> W -> Prop :=
| AllSteps w1 docs w2 text :
    connectToDB w = (Ok tt, w1) ->
    exec (query_for (id (params ctx))) w1 = (Ok docs, w2) ->
    JSON_stringify docs = Ok text ->
    Success ctx w docs text w2.

End Outcomes.

(* ================================================================== *)
(** ** The data-fetching examples of [README.md] *)
(* ================================================================== *)

(** What the examples call: the platform's [fetch(url)] and the [json()]
    of the reply, both awaited, both able to throw. *)
Class Network (W Reply : Type) : Type := {
  fetch : string -> M W Reply;
  json : Reply -> M W JSON
}.

(** [getStaticPaths] of the incremental-regeneration example. *)
Module StaticPaths.

(** [post.slug] may be [undefined]: [None]. *)
Record Params : Type := { slug : option JSON }.
Record Path : Type := { params : Params }.
Record Result : Type := { paths : list Path; fallback : bool }.

Definition null_has_no_properties : Exn :=
  {| name := "TypeError"; message := "Cannot read properties of null" |}.

Definition map_is_not_a_function : Exn :=
  {| name := "TypeError"; message := "posts.map is not a function" |}.

(** [post.slug]: reading a property of [null] throws; an object gives the
    property, if it has one; numbers, strings, booleans and arrays have
    no such property. *)
Definition post_slug (post : JSON) : Res (option JSON) :=
  match post with
  | JNull => Throw null_has_no_properties
  | JObj fields => Ok (get_field "slug" fields)
  | _ => Ok None
  end.

(** [(post) => ({ params: { slug: post.slug } })] *)
Definition path_of (post : JSON) : Res Path :=
  match post_slug post with
  | Throw e => Throw e
  | Ok s => Ok {| params := {| slug := s |} |}
  end.

(** The callback over the elements, first to last; a throw ends it. *)
Fixpoint map_elems (f : JSON -> Res Path) (elems : list JSON) : Res (list Path) :=
  match elems with
  | [] => Ok []
  | post :: rest =>
      match f post with
      | Throw e => Throw e
      | Ok p =>
          match map_elems f rest with
          | Throw e => Throw e
          | Ok ps => Ok (p :: ps)
          end
      end
  end.

(** [posts.map(f)] on whatever [res.json()] gave: only an array has the
    method. *)
Definition posts_map (f : JSON -> Res Path) (posts : JSON) : Res (list Path) :=
  match posts with
  | JArr elems => map_elems f elems
  | JNull => Throw null_has_no_properties
  | _ => Throw map_is_not_a_function
  end.

Section WithNetwork.

Context {W Reply : Type} {net : Network W Reply}.

(** [export async function getStaticPaths() { ... }] *)
Definition getStaticPaths : M W Result :=
  res <- fetch "https://api.example.com/posts" ;;
  posts <- json res ;;
  paths <- lift (posts_map path_of posts) ;;
  ret {| paths := paths; fallback := true |}.

End WithNetwork.

End StaticPaths.

(** [getStaticProps] of the incremental-regeneration example. *)
Module StaticProps.

(** The route parameter of the page and the context [{ params }]. *)
Record Params : Type := { slug : string }.
Record Context : Type := { params : Params }.

Record Props : Type := { post : JSON }.
Record Result : Type := { props : Props; revalidate : Z }.

Section WithNetwork.

Context {W Reply : Type} {net : Network W Reply}.

(** [export async function getStaticProps({ params }) { ... }] *)
Definition getStaticProps (ctx : Context) : M W Result :=
  res <- fetch ("https://api.example.com/posts/" ++ slug (params ctx)) ;;
  post <- json res ;;
  ret {| props := {| post := post |}; revalidate := 60 |}.

End WithNetwork.

End StaticProps.

(** A recording double of the network. *)
Module NetMock.

Inductive NetCall : Type :=
| CallFetch (url : string)
| CallJson.

Definition mock_fetch (answer : Res unit) (url : string)
  : M (list NetCall) unit :=
  fun calls => (answer, (calls ++ [CallFetch url])%list).

Definition mock_json (answer : Res JSON) (res : unit)
  : M (list NetCall) JSON :=
  fun calls => (answer, (calls ++ [CallJson])%list).

Definition net_mock (fetched : Res unit) (parsed : Res JSON)
  : Network (list NetCall) unit := {|
  fetch := mock_fetch fetched;
  json := mock_json parsed
|}.

End NetMock.

Definition two_posts : JSON :=
  JArr [JObj [("slug", JStr "first"); ("title", JStr "One")];
        JObj [("title", JStr "No slug")]].

Definition network_down : Exn :=
  {| name := "TypeError"; message := "fetch failed" |}.

(* ================================================================== *)
(** ** Facts about JSON objects and the store's query *)
(* ================================================================== *)

Lemma get_set_field key v fields old :
  get_field key fields = Some old ->
  get_field key (set_field key v fields) = Some v.
Proof.
  induction fields as [| [k x] rest IH]; simpl; [discriminate |].
  destruct (String.eqb k key) eqn:E; simpl; rewrite E; auto.
Qed.

Lemma set_field_length key v fields :
  length (set_field key v fields) = length fields.
Proof.
  induction fields as [| [k x] rest IH]; simpl; [reflexivity |].
  destruct (String.eqb k key); simpl; congruence.
Qed.

Lemma field_is_get key v d :
  Store.field_is key v d = true -> get_field key d = Some (JStr v).
Proof.
  unfold Store.field_is.
  destruct (get_field key d) as [[| | | s | |] |]; try discriminate.
  intros E. apply String.eqb_eq in E. now subst.
Qed.

Lemma matches_creator i d :
  Store.matches (conditions (query_for i)) d = Store.field_is "creator" i d.
Proof. simpl. apply andb_true_r. Qed.

(** On an Item of Owner [i], populating [creator] installs the Owner. *)
Lemma populate_doc_creator owners i owner d :
  find (Store.field_is "_id" i) owners = Some owner ->
  Store.field_is "creator" i d = true ->
  Store.populate_doc owners (populated (query_for i)) d
  = set_field "creator" (JObj owner) d.
Proof.
  intros Hown Hd. apply field_is_get in Hd.
  unfold Store.populate_doc, Store.populate_path. simpl.
  rewrite Hd. simpl. now rewrite Hown.
Qed.

Lemma run_query_for owners items i owner :
  find (Store.field_is "_id" i) owners = Some owner ->
  Store.run_query (query_for i) {| Store.users := owners; Store.prompts := items |}
  = map (set_field "creator" (JObj owner))
        (filter (Store.field_is "creator" i) items).
Proof.
  intros Hown. unfold Store.run_query. cbn [Store.users Store.prompts].
  rewrite (filter_ext _ _ (matches_creator i)).
  apply map_ext_in. intros d Hin. apply filter_In in Hin as [_ Hd].
  now apply populate_doc_creator.
Qed.

Lemma run_query_length q base :
  length (Store.run_query q base)
  = length (filter (Store.matches (conditions q)) (Store.prompts base)).
Proof. unfold Store.run_query. apply length_map. Qed.

Lemma store_toJSON_all (docs : list Store.Doc) :
  toJSON_all (imports := Store.store) docs = Ok (map JObj docs).
Proof.
  induction docs as [| d rest IH]; simpl; [reflexivity |]. now rewrite IH.
Qed.

Lemma store_JSON_stringify (docs : list Store.Doc) :
  JSON_stringify (imports := Store.store) docs = Ok (stringify (JArr (map JObj docs))).
Proof. unfold JSON_stringify. now rewrite store_toJSON_all. Qed.

(* ================================================================== *)
(** ** The handler against every implementation of its imports *)
(* ================================================================== *)

Section HandlerFacts.

Context {W Document : Type} {imports : Collaborators W Document}.

Ltac run_handler :=
  unfold GET, try_catch, GET_try, GET_catch, bind, lift, ret;
  change (populate (Prompt_find [("creator", ?i)]) "creator") with (query_for i).

Lemma GET_on_failure req ctx w e w1 :
  Failure ctx w e w1 -> GET req ctx w = (Ok error_response, w1).
Proof.
  intros F. run_handler.
  destruct F as [e w1 Hc | w1 e w2 Hc Hq | w1 docs w2 e Hc Hq Hs].
  - now rewrite Hc.
  - now rewrite Hc, Hq.
  - now rewrite Hc, Hq, Hs.
Qed.

Lemma GET_on_success req ctx w docs text w2 :
  Success ctx w docs text w2 -> GET req ctx w = (Ok (ok_response text), w2).
Proof.
  intros [w1 docs' w2' text' Hc Hq Hs]. run_handler.
  now rewrite Hc, Hq, Hs.
Qed.

(** Every run is one of the four: three failures, one success. *)
Lemma GET_run ctx w :
  (exists e w1, Failure ctx w e w1) \/
  (exists docs text w2, Success ctx w docs text w2).
Proof.
  destruct (connectToDB w) as [[[] | e] w1] eqn:Hc.
  - destruct (exec (query_for (id (params ctx))) w1) as [[docs | e] w2] eqn:Hq.
    + destruct (JSON_stringify docs) as [text | e] eqn:Hs.
      * right. exists docs, text, w2. now apply AllSteps with w1.
      * left. exists e, w2. now apply SerializationFailure with w1 docs.
    + left. exists e, w2. now apply QueryFailure with w1.
  - left. exists e, w1. now apply ConnectionFailure.
Qed.

Lemma GET_response req ctx w :
  exists r w', GET req ctx w = (Ok r, w') /\
               (r = error_response \/ exists text, r = ok_response text).
Proof.
  destruct (GET_run ctx w) as [(e & w1 & F) | (docs & text & w2 & S)].
  - exists error_response, w1. split; [now apply GET_on_failure with e | now left].
  - exists (ok_response text), w2. split; [now apply GET_on_success with docs |].
    right. now exists text.
Qed.

Lemma toJSON_all_Forall2 docs vs :
  toJSON_all docs = Ok vs <-> Forall2 (fun d v => toJSON d = Ok v) docs vs.
Proof.
  revert vs. induction docs as [| d rest IH]; intros vs; simpl.
  - split.
    + intros E. injection E as <-. constructor.
    + intros F. inversion F. reflexivity.
  - split.
    + destruct (toJSON d) as [v | e] eqn:Hd; [| discriminate].
      destruct (toJSON_all rest) as [vs' | e] eqn:Hr; [| discriminate].
      intros E. injection E as <-. constructor; [assumption |]. now apply IH.
    + intros F. inversion F as [| d' v rest' vs' Hd Hrest]; subst.
      rewrite Hd. apply IH in Hrest. now rewrite Hrest.
Qed.

(** A frame rule: what the imported modules leave alone, the handler
    leaves alone. *)
Lemma GET_frame {S : Type} (view : W -> S) req ctx w :
  (forall w0, view (snd (connectToDB w0)) = view w0) ->
  (forall q w0, view (snd (exec q w0)) = view w0) ->
  view (snd (GET req ctx w)) = view w.
Proof.
  intros Hc Hq. run_handler.
  specialize (Hc w). destruct (connectToDB w) as [[[] | e] w1]; simpl in *; auto.
  specialize (Hq (query_for (id (params ctx))) w1).
  destruct (exec _ w1) as [[docs | e] w2]; simpl in *; [| congruence].
  destruct (JSON_stringify docs); simpl; congruence.
Qed.

(** C2: every failure while connecting, querying or serializing is caught
    at the handler boundary.  No run of the handler throws; a run whose
    [try] block fails, at whichever of the three steps and with whatever
    exception, returns the one fixed response: status 500 and the
    plain-text body "Failed to create a new prompt", nothing of the
    result in it.  A run that is no such failure completed all three
    steps. *)
Theorem GET_catches_every_failure req ctx w :
  (exists r w', GET req ctx w = (Ok r, w')) /\
  (forall e w1, Failure ctx w e w1 -> GET req ctx w = (Ok error_response, w1)) /\
  ((exists e w1, Failure ctx w e w1) \/
   (exists docs text w2, Success ctx w docs text w2)) /\
  body error_response = "Failed to create a new prompt" /\
  status error_response = 500 /\
  header_get "Content-Type" (headers error_response)
    = Some "text/plain;charset=UTF-8".
Proof.
  split; [| split; [| split; [| repeat split]]].
  - destruct (GET_response req ctx w) as (r & w' & E & _). now exists r, w'.
  - intros e w1 F. now apply GET_on_failure with e.
  - apply GET_run.
Qed.

(** C9: the status of the response is 200 or 500 in every invocation,
    whatever the request, the route parameter and the world; no other
    status is produced. *)
Theorem GET_status_200_or_500 req ctx w :
  exists r w', GET req ctx w = (Ok r, w') /\ (status r = 200 \/ status r = 500).
Proof.
  destruct (GET_response req ctx w) as (r & w' & E & [-> | [text ->]]).
  - exists error_response, w'. split; [assumption | now right].
  - exists (ok_response text), w'. split; [assumption | now left].
Qed.

(** C10: the response depends only on [params.id] and the world.  Two
    invocations in the same world whose contexts carry the same
    [params.id] give the same result whatever the two request objects
    are: [req] is never read. *)
Theorem GET_ignores_request req1 req2 ctx1 ctx2 w :
  id (params ctx1) = id (params ctx2) ->
  GET req1 ctx1 w = GET req2 ctx2 w.
Proof.
  intros E. run_handler. now rewrite E.
Qed.

(** C7: the array in the body has the documents in the order in which the
    awaited [find] query returned them.  When the query returns [docs] and
    their [toJSON] values are [vs], element by element, the body is the
    bracketed, comma-separated text of [vs] in that same order. *)
Theorem GET_keeps_order req ctx w w1 docs w2 vs :
  connectToDB w = (Ok tt, w1) ->
  exec (populate (Prompt_find [("creator", id (params ctx))]) "creator") w1
    = (Ok docs, w2) ->
  Forall2 (fun d v => toJSON d = Ok v) docs vs ->
  exists r,
    GET req ctx w = (Ok r, w2) /\
    status r = 200 /\
    body r = "[" ++ String.concat "," (map stringify vs) ++ "]".
Proof.
  intros Hc Hq Hvs. apply toJSON_all_Forall2 in Hvs.
  exists (ok_response (stringify (JArr vs))). split; [| split; reflexivity].
  apply GET_on_success with docs. apply AllSteps with w1; try assumption.
  unfold JSON_stringify. now rewrite Hvs.
Qed.

(** C4 (as amended): a response with status 200 carries no header of the
    handler's own.  Its one header is the [Content-Type] the [Response]
    constructor derives from a body given as a string,
    [text/plain;charset=UTF-8]. *)
Theorem GET_ok_content_type req ctx w r w' :
  GET req ctx w = (Ok r, w') ->
  status r = 200 ->
  headers r = [("content-type", "text/plain;charset=UTF-8")] /\
  header_get "Content-Type" (headers r) = Some "text/plain;charset=UTF-8".
Proof.
  intros E _. destruct (GET_response req ctx w) as (r0 & w0 & E0 & Hr).
  rewrite E in E0. injection E0 as <- <-.
  destruct Hr as [-> | [text ->]]; split; reflexivity.
Qed.

End HandlerFacts.

(* ================================================================== *)
(** ** The handler against the document store *)
(* ================================================================== *)

Lemma connected_idem w :
  Store.isConnected w = true -> Store.connected w = w.
Proof. destruct w as [base c o]. simpl. now intros ->. Qed.

(** With the store reachable the handler connects if it has to, runs its
    query and answers 200. *)
Lemma store_GET_online req ctx w :
  Store.online w = true ->
  GET req ctx w
  = (Ok (ok_response
           (stringify
              (JArr (map JObj (Store.run_query (query_for (id (params ctx)))
                                               (Store.db w)))))),
     Store.connected w).
Proof.
  intros Hon.
  apply GET_on_success
    with (docs := Store.run_query (query_for (id (params ctx))) (Store.db w)).
  apply AllSteps with (w1 := Store.connected w).
  - simpl. unfold Store.store_connectToDB. rewrite Hon.
    destruct (Store.isConnected w) eqn:Hc; [| reflexivity].
    now rewrite connected_idem.
  - simpl. unfold Store.store_exec. simpl. now rewrite Hon.
  - apply store_JSON_stringify.
Qed.

(** With the store out of reach the handler answers 500 and nothing
    changes. *)
Lemma store_GET_offline req ctx w :
  Store.online w = false ->
  GET req ctx w = (Ok error_response, w).
Proof.
  intros Hoff. destruct (Store.isConnected w) eqn:Hc.
  - apply GET_on_failure with Store.query_error.
    apply QueryFailure with w; simpl.
    + unfold Store.store_connectToDB. now rewrite Hc.
    + unfold Store.store_exec. now rewrite Hc, Hoff.
  - apply GET_on_failure with Store.connection_error.
    apply ConnectionFailure. simpl.
    unfold Store.store_connectToDB. now rewrite Hc, Hoff.
Qed.

Lemma store_GET_world req ctx w :
  snd (GET req ctx w) = if Store.online w then Store.connected w else w.
Proof.
  destruct (Store.online w) eqn:Hon.
  - now rewrite store_GET_online.
  - now rewrite store_GET_offline.
Qed.

(** The response is a function of the store and of whether it can be
    reached; the state of the connection does not show in it. *)
Lemma store_GET_same_store req ctx w1 w2 :
  Store.db w1 = Store.db w2 ->
  Store.online w1 = Store.online w2 ->
  fst (GET req ctx w1) = fst (GET req ctx w2).
Proof.
  intros Hdb Hon. destruct (Store.online w2) eqn:H2.
  - rewrite (store_GET_online req ctx w1 Hon), (store_GET_online req ctx w2 H2).
    simpl. now rewrite Hdb.
  - now rewrite (store_GET_offline req ctx w1 Hon), (store_GET_offline req ctx w2 H2).
Qed.

(** C1: for an Owner identifier [i] (an Owner [owner] of the store has
    that [_id]) with [N] matching Items, the handler, the store being
    reachable, answers 200 with the text of a JSON array of exactly [N]
    elements: the matching Items in store order, each with its [creator]
    field holding the Owner object whose [_id] is [i]. *)
Theorem GET_owner_posts req ctx w owner N :
  Store.online w = true ->
  find (Store.field_is "_id" (id (params ctx))) (Store.users (Store.db w))
    = Some owner ->
  length (Store.items_of (id (params ctx)) (Store.db w)) = N ->
  exists r w' elems,
    GET req ctx w = (Ok r, w') /\
    status r = 200 /\
    body r = stringify (JArr elems) /\
    length elems = N /\
    elems = map (fun item => JObj (set_field "creator" (JObj owner) item))
                (Store.items_of (id (params ctx)) (Store.db w)) /\
    Forall (fun e => exists fields,
                e = JObj fields /\
                get_field "creator" fields = Some (JObj owner)) elems /\
    get_field "_id" owner = Some (JStr (id (params ctx))).
Proof.
  intros Hon Hown HN. set (i := id (params ctx)) in *.
  exists (ok_response
            (stringify (JArr (map JObj (Store.run_query (query_for i) (Store.db w)))))),
         (Store.connected w),
         (map (fun item => JObj (set_field "creator" (JObj owner) item))
              (Store.items_of i (Store.db w))).
  assert (Hrun : map JObj (Store.run_query (query_for i) (Store.db w))
                 = map (fun item => JObj (set_field "creator" (JObj owner) item))
                       (Store.items_of i (Store.db w))).
  { destruct (Store.db w) as [owners items]. simpl in Hown.
    rewrite (@run_query_for owners items i owner Hown). unfold Store.items_of. simpl.
    now rewrite map_map. }
  repeat split.
  - now apply store_GET_online.
  - simpl. now rewrite Hrun.
  - now rewrite length_map.
  - apply Forall_forall. intros e He. apply in_map_iff in He as (item & <- & Hin).
    exists (set_field "creator" (JObj owner) item). split; [reflexivity |].
    apply filter_In in Hin as [_ Hitem]. apply field_is_get in Hitem.
    now apply get_set_field with (JStr i).
  - apply find_some in Hown as [_ Hid]. now apply field_is_get.
Qed.

(** C3: for an identifier with no matching Item the handler, the store
    being reachable, answers 200 with the empty JSON array, not the error
    response. *)
Theorem GET_no_posts req ctx w :
  Store.online w = true ->
  Store.items_of (id (params ctx)) (Store.db w) = [] ->
  exists r w',
    GET req ctx w = (Ok r, w') /\
    status r = 200 /\
    body r = "[]" /\
    body r = stringify (JArr []) /\
    r <> error_response.
Proof.
  intros Hon Hnone.
  exists (ok_response "[]"), (Store.connected w).
  repeat split; try discriminate.
  rewrite (store_GET_online req ctx w Hon).
  unfold Store.run_query, Store.items_of in *.
  rewrite (filter_ext _ _ (matches_creator (id (params ctx)))), Hnone.
  reflexivity.
Qed.

(** C5: the handler is deterministic with respect to the store.  Two
    invocations with the same request and the same [params.id], in two
    worlds that agree on the store (its documents and whether it can be
    reached), return the same response, so the same body; the state of the
    connection may differ between the two. *)
Theorem GET_deterministic req ctx w1 w2 :
  Store.db w1 = Store.db w2 ->
  Store.online w1 = Store.online w2 ->
  exists r1 r2 w1' w2',
    GET req ctx w1 = (Ok r1, w1') /\
    GET req ctx w2 = (Ok r2, w2') /\
    body r1 = body r2 /\
    r1 = r2.
Proof.
  intros Hdb Hon.
  destruct (GET_response req ctx w1) as (r1 & w1' & E1 & _).
  destruct (GET_response req ctx w2) as (r2 & w2' & E2 & _).
  exists r1, r2, w1', w2'.
  pose proof (store_GET_same_store req ctx w1 w2 Hdb Hon) as Hsame.
  rewrite E1, E2 in Hsame. simpl in Hsame. injection Hsame as ->.
  repeat split; assumption.
Qed.

(** The same request twice in a row: the second response is the first. *)
Lemma GET_repeat req ctx (w : Store.World) :
  exists r w1 w2,
    GET req ctx w = (Ok r, w1) /\ GET req ctx w1 = (Ok r, w2).
Proof.
  destruct (GET_response req ctx w) as (r & w1 & E1 & _).
  destruct (GET_response req ctx w1) as (r2 & w2 & E2 & _).
  exists r, w1, w2. split; [assumption |].
  assert (Hw : w1 = snd (GET req ctx w)) by now rewrite E1.
  rewrite store_GET_world in Hw.
  assert (Hsame : fst (GET req ctx w) = fst (GET req ctx w1)).
  { apply store_GET_same_store; subst w1;
      destruct (Store.online w) eqn:Hon; simpl; congruence. }
  rewrite E1, E2 in Hsame. simpl in Hsame. injection Hsame as ->. assumption.
Qed.

(** The calls the handler makes on the imported modules, in order. *)
Lemma GET_calls connected found serialized req ctx calls :
  snd (GET (imports := Mock.mock connected found serialized) req ctx calls)
  = (calls ++ Mock.CallConnect ::
       match connected with
       | Ok _ => [Mock.CallExec (query_for (id (params ctx)))]
       | Throw _ => []
       end)%list.
Proof.
  unfold GET, try_catch, GET_try, GET_catch, bind, lift, ret. simpl.
  unfold Mock.mock_connectToDB, Mock.mock_exec.
  destruct connected as [[] | e]; simpl; [| reflexivity].
  destruct found as [docs | e]; simpl; [| now rewrite <- app_assoc].
  destruct (JSON_stringify docs); simpl; now rewrite <- app_assoc.
Qed.

(** C6: an invocation leaves the document store as it was.  The documents
    and the reachability of the store are unchanged; the one thing that
    can change is the connection, which is set up when the store can be
    reached and is left alone when it already exists; nothing of an
    invocation is kept for the next (after any change of the store from
    outside, the next response is the one a world that never ran the
    handler gives); and the calls made on the imported modules are the
    connection setup and, at most, the one read query. *)
Theorem GET_leaves_store req ctx (w : Store.World) :
  Store.db (snd (GET req ctx w)) = Store.db w /\
  Store.online (snd (GET req ctx w)) = Store.online w /\
  Store.isConnected (snd (GET req ctx w))
    = orb (Store.isConnected w) (Store.online w) /\
  (Store.isConnected w = true -> snd (GET req ctx w) = w) /\
  (forall req' ctx' base,
      fst (GET req' ctx' (Store.with_db base (snd (GET req ctx w))))
      = fst (GET req' ctx' (Store.with_db base w))) /\
  (forall connected found serialized calls,
      let after :=
        snd (GET (imports := Mock.mock connected found serialized) req ctx calls)
      in
      after = (calls ++ [Mock.CallConnect])%list \/
      after = (calls ++ [Mock.CallConnect;
                         Mock.CallExec (query_for (id (params ctx)))])%list).
Proof.
  split; [| split].
  - apply GET_frame.
    + intros [base [] []]; reflexivity.
    + intros q [base [] []]; reflexivity.
  - apply GET_frame.
    + intros [base [] []]; reflexivity.
    + intros q [base [] []]; reflexivity.
  - rewrite store_GET_world.
    destruct (Store.online w) eqn:Hon; repeat split; simpl; auto.
    + now rewrite orb_true_r.
    + apply connected_idem.
    + intros req' ctx' base. now apply store_GET_same_store.
    + intros connected found serialized calls. rewrite GET_calls.
      destruct connected; [now right | now left].
    + now rewrite orb_false_r.
    + intros connected found serialized calls. rewrite GET_calls.
      destruct connected; [now right | now left].
Qed.

(** C8: the route parameter is the filter, as it is.  Against a recording
    double of the imported modules, whatever these answer and for every
    string [params.id], the handler connects and then, unless connecting
    threw, runs one query: [find] with the one condition that [creator]
    equals that very string, populated on [creator].  Against any
    implementation, once connected, the world the handler leaves is the
    one that query leaves. *)
Theorem GET_filter_is_route_id :
  (forall connected found serialized req ctx calls,
      snd (GET (imports := Mock.mock connected found serialized) req ctx calls)
      = (calls ++ Mock.CallConnect ::
           match connected with
           | Ok _ =>
               [Mock.CallExec {| conditions := [("creator", id (params ctx))];
                                 populated := ["creator"] |}]
           | Throw _ => []
           end)%list) /\
  (forall W Document (imports : Collaborators W Document) req ctx w w1,
      connectToDB w = (Ok tt, w1) ->
      snd (GET req ctx w)
      = snd (exec {| conditions := [("creator", id (params ctx))];
                     populated := ["creator"] |} w1)).
Proof.
  split.
  - intros connected found serialized req ctx calls. apply GET_calls.
  - intros W Document imports req ctx w w1 Hc.
    destruct (GET_run ctx w) as [(e & w' & F) | (docs & text & w' & S)].
    + rewrite (GET_on_failure req F). simpl.
      destruct F as [e w' Hc' | w0 e w' Hc' Hq | w0 docs w' e Hc' Hq Hs];
        rewrite Hc in Hc'; try discriminate;
        injection Hc' as <-; unfold query_for in Hq; now rewrite Hq.
    + rewrite (GET_on_success req S). simpl.
      destruct S as [w0 docs w' text Hc' Hq Hs].
      rewrite Hc in Hc'. injection Hc' as <-.
      unfold query_for in Hq. now rewrite Hq.
Qed.

(* ================================================================== *)
(** ** The theorems at the example scenario *)
(* ================================================================== *)

Lemma GET_owner_posts_witness :
  Store.online Store.example_world = true /\
  exists r w' elems,
    GET a_request (context_of "u1") Store.example_world = (Ok r, w') /\
    status r = 200 /\
    body r = stringify (JArr elems) /\
    length elems = 2%nat /\
    elems = map (fun item => JObj (set_field "creator" (JObj Store.alice) item))
                (Store.items_of "u1" Store.example_db) /\
    Forall (fun e => exists fields,
                e = JObj fields /\
                get_field "creator" fields = Some (JObj Store.alice)) elems /\
    get_field "_id" Store.alice = Some (JStr "u1").
Proof.
  split; [reflexivity |].
  apply (@GET_owner_posts a_request (context_of "u1") Store.example_world
           Store.alice 2); reflexivity.
Defined.

Lemma GET_no_posts_witness :
  Store.items_of "u9" Store.example_db = [] /\
  exists r w',
    GET a_request (context_of "u9") Store.example_world = (Ok r, w') /\
    status r = 200 /\
    body r = "[]" /\
    body r = stringify (JArr []) /\
    r <> error_response.
Proof.
  split; [reflexivity |].
  apply (@GET_no_posts a_request (context_of "u9") Store.example_world);
    reflexivity.
Defined.

Lemma GET_catches_every_failure_witness :
  GET a_request (context_of "u1") Store.offline_world
    = (Ok error_response, Store.offline_world) /\
  GET a_request (context_of "u1") Store.stale_world
    = (Ok error_response, Store.stale_world) /\
  GET (imports := Mock.mock (Ok tt) (Ok [JNull]) (fun _ => Throw type_error))
      a_request (context_of "u1") []
    = (Ok error_response,
       [Mock.CallConnect; Mock.CallExec (query_for "u1")]).
Proof.
  split; [| split].
  - apply (proj1 (proj2 (GET_catches_every_failure
                           a_request (context_of "u1") Store.offline_world))
             Store.connection_error).
    apply ConnectionFailure. reflexivity.
  - apply (proj1 (proj2 (GET_catches_every_failure
                           a_request (context_of "u1") Store.stale_world))
             Store.query_error).
    apply QueryFailure with Store.stale_world; reflexivity.
  - apply (proj1 (proj2 (GET_catches_every_failure
                           (imports := Mock.mock (Ok tt) (Ok [JNull])
                                         (fun _ => Throw type_error))
                           a_request (context_of "u1") []))
             type_error).
    apply SerializationFailure with [Mock.CallConnect] [JNull]; reflexivity.
Defined.

Lemma GET_ignores_request_witness :
  GET a_request (context_of "u1") Store.example_world
  = GET another_request (context_of "u1") Store.example_world.
Proof.
  apply (@GET_ignores_request _ _ _ a_request another_request
           (context_of "u1") (context_of "u1") Store.example_world).
  reflexivity.
Defined.

Lemma GET_keeps_order_witness :
  exists r,
    GET a_request (context_of "u1") Store.example_world
      = (Ok r, Store.connected Store.example_world) /\
    status r = 200 /\
    body r
    = "[" ++ String.concat ","
               (map stringify
                  [JObj (set_field "creator" (JObj Store.alice)
                           [("_id", JStr "p1"); ("creator", JStr "u1");
                            ("content", JStr "hi")]);
                   JObj (set_field "creator" (JObj Store.alice)
                           [("_id", JStr "p2"); ("creator", JStr "u1");
                            ("content", JStr "yo")])])
          ++ "]".
Proof.
  apply (@GET_keeps_order _ _ _ a_request (context_of "u1") Store.example_world
           (Store.connected Store.example_world)
           (Store.run_query (query_for "u1") Store.example_db)).
  - reflexivity.
  - reflexivity.
  - repeat constructor.
Defined.

Lemma GET_ok_content_type_witness :
  headers (ok_response (stringify (JArr [])))
    = [("content-type", "text/plain;charset=UTF-8")] /\
  header_get "Content-Type" (headers (ok_response (stringify (JArr []))))
    = Some "text/plain;charset=UTF-8".
Proof.
  apply (@GET_ok_content_type _ _ _ a_request (context_of "u9")
           Store.example_world (ok_response (stringify (JArr [])))
           (Store.connected Store.example_world)); reflexivity.
Defined.

(** C4 as stated fails: in the example scenario the response has status
    200 and its [Content-Type] is not [application/json]. *)
Lemma GET_content_type_counterexample :
  exists r w',
    GET a_request (context_of "u1") Store.example_world = (Ok r, w') /\
    status r = 200 /\
    header_get "Content-Type" (headers r) = Some "text/plain;charset=UTF-8" /\
    header_get "Content-Type" (headers r) <> Some "application/json".
Proof.
  eexists. eexists. split; [reflexivity |].
  split; [reflexivity |]. split; [reflexivity | discriminate].
Qed.

Lemma GET_deterministic_witness :
  exists r1 r2 w1' w2',
    GET a_request (context_of "u1") Store.example_world = (Ok r1, w1') /\
    GET a_request (context_of "u1") (Store.connected Store.example_world)
      = (Ok r2, w2') /\
    body r1 = body r2 /\
    r1 = r2.
Proof.
  apply (@GET_deterministic a_request (context_of "u1") Store.example_world
           (Store.connected Store.example_world)); reflexivity.
Defined.

Lemma GET_leaves_store_witness :
  snd (GET a_request (context_of "u1") (Store.connected Store.example_world))
  = Store.connected Store.example_world.
Proof.
  apply (proj1 (proj2 (proj2 (proj2
           (GET_leaves_store a_request (context_of "u1")
              (Store.connected Store.example_world)))))).
  reflexivity.
Defined.

Lemma GET_filter_is_route_id_witness :
  snd (GET a_request (context_of " U1 ") Store.example_world)
  = snd (Store.store_exec
           {| conditions := [("creator", " U1 ")]; populated := ["creator"] |}
           (Store.connected Store.example_world)).
Proof.
  apply (proj2 GET_filter_is_route_id _ _ Store.store a_request
           (context_of " U1 ") Store.example_world
           (Store.connected Store.example_world)).
  reflexivity.
Defined.

(* ================================================================== *)
(** ** What the status of a response tells *)
(* ================================================================== *)

Section StatusFacts.

Context {W Document : Type} {imports : Collaborators W Document}.

(** X1: the status tells what happened.  A response of the handler has
    status 200 exactly when connecting, querying and serializing all
    succeeded, and then it is the response built from the serialized
    documents; it has status 500 exactly when one of the three steps threw,
    and then it is the fixed error response. *)
Theorem GET_status_tells req ctx w r w' :
  GET req ctx w = (Ok r, w') ->
  (status r = 200 <->
   exists docs text, Success ctx w docs text w' /\ r = ok_response text) /\
  (status r = 500 <->
   exists e, Failure ctx w e w' /\ r = error_response).
Proof.
  intros E.
  destruct (GET_run ctx w) as [(e & w1 & F) | (docs & text & w2 & S)].
  - pose proof (GET_on_failure req F) as E'. rewrite E in E'.
    injection E' as -> ->. split; split.
    + discriminate.
    + intros (docs & text & S & _).
      pose proof (GET_on_success req S) as E'.
      rewrite (GET_on_failure req F) in E'. discriminate.
    + intros _. now exists e.
    + reflexivity.
  - pose proof (GET_on_success req S) as E'. rewrite E in E'.
    injection E' as -> ->. split; split.
    + intros _. now exists docs, text.
    + reflexivity.
    + discriminate.
    + intros (e & F & _).
      pose proof (GET_on_failure req F) as E'.
      rewrite (GET_on_success req S) in E'. discriminate.
Qed.

End StatusFacts.

Lemma GET_status_tells_witness :
  (status (ok_response (stringify (JArr []))) = 200 <->
   exists docs text,
     Success (context_of "u9") Store.example_world docs text
       (Store.connected Store.example_world) /\
     ok_response (stringify (JArr [])) = ok_response text) /\
  (status (ok_response (stringify (JArr []))) = 500 <->
   exists e,
     Failure (context_of "u9") Store.example_world e
       (Store.connected Store.example_world) /\
     ok_response (stringify (JArr [])) = error_response).
Proof.
  apply (@GET_status_tells _ _ _ a_request (context_of "u9")
           Store.example_world (ok_response (stringify (JArr [])))
           (Store.connected Store.example_world)).
  reflexivity.
Defined.

(* ================================================================== *)
(** ** The README examples against every network *)
(* ================================================================== *)

Section StaticPathsFacts.

Context {W Reply : Type} {net : Network W Reply}.

Import StaticPaths.

Lemma map_elems_ok elems :
  Forall (fun post => post <> JNull) elems ->
  exists ps,
    map_elems path_of elems = Ok ps /\
    Forall2 (fun post p => post_slug post = Ok (slug (params p))) elems ps.
Proof.
  induction 1 as [| post rest Hpost _ (ps & E & F)]; simpl.
  - exists []. split; [reflexivity | constructor].
  - unfold path_of at 1.
    destruct post as [| b | n | s | l | fields]; try congruence; simpl;
      rewrite E; eexists; (split; [reflexivity |]);
      (constructor; [reflexivity | assumption]).
Qed.

Lemma map_elems_null elems :
  In JNull elems -> map_elems path_of elems = Throw null_has_no_properties.
Proof.
  induction elems as [| post rest IH]; simpl; [contradiction |].
  intros [-> | Hin]; [reflexivity |].
  unfold path_of at 1.
  destruct (post_slug post) as [s | e] eqn:Hs.
  - now rewrite (IH Hin).
  - destruct post; try discriminate. simpl in Hs. congruence.
Qed.

Lemma Forall2_same_length {A B} (R : A -> B -> Prop) l1 l2 :
  Forall2 R l1 l2 -> length l1 = length l2.
Proof. induction 1; simpl; congruence. Qed.

Lemma getStaticPaths_returns w res w1 elems w2 :
  fetch "https://api.example.com/posts" w = (Ok res, w1) ->
  json res w1 = (Ok (JArr elems), w2) ->
  Forall (fun post => post <> JNull) elems ->
  exists ps,
    getStaticPaths w = (Ok {| paths := ps; fallback := true |}, w2) /\
    Forall2 (fun post p => post_slug post = Ok (slug (params p))) elems ps.
Proof.
  intros Hf Hj Hall. destruct (map_elems_ok Hall) as (ps & E & F).
  exists ps. split; [| assumption].
  unfold getStaticPaths, bind, lift, ret. rewrite Hf, Hj. simpl. now rewrite E.
Qed.

(** X2: [getStaticPaths] returns one path per post, in order.  When the
    reply parses to an array none of whose elements is [null], the result
    has exactly as many paths as the array has posts, the n-th path
    carries the [slug] of the n-th post ([undefined] when the post has
    none or is not an object), and [fallback] is [true]. *)
Theorem getStaticPaths_one_path_per_post w res w1 elems w2 :
  fetch "https://api.example.com/posts" w = (Ok res, w1) ->
  json res w1 = (Ok (JArr elems), w2) ->
  Forall (fun post => post <> JNull) elems ->
  exists ps,
    getStaticPaths w = (Ok {| paths := ps; fallback := true |}, w2) /\
    length ps = length elems /\
    Forall2 (fun post p => post_slug post = Ok (slug (params p))) elems ps.
Proof.
  intros Hf Hj Hall.
  destruct (getStaticPaths_returns w Hf Hj Hall) as (ps & E & F).
  exists ps. split; [assumption | split; [| assumption]].
  symmetry. exact (Forall2_same_length F).
Qed.

(** X3: [getStaticPaths] catches nothing.  An exception of [fetch] or of
    [json] comes out as it is, with the world as it was left; a reply
    that is not an array, or an array with a [null] in it, makes it throw
    a [TypeError]; and it returns exactly when the two calls return and
    the reply is an array without [null]. *)
Theorem getStaticPaths_failures w :
  (forall e w1,
      fetch "https://api.example.com/posts" w = (Throw e, w1) ->
      getStaticPaths w = (Throw e, w1)) /\
  (forall res w1 e w2,
      fetch "https://api.example.com/posts" w = (Ok res, w1) ->
      json res w1 = (Throw e, w2) ->
      getStaticPaths w = (Throw e, w2)) /\
  (forall res w1 posts w2,
      fetch "https://api.example.com/posts" w = (Ok res, w1) ->
      json res w1 = (Ok posts, w2) ->
      (forall elems, posts = JArr elems -> In JNull elems) ->
      exists e, getStaticPaths w = (Throw e, w2) /\ name e = "TypeError") /\
  ((exists r w', getStaticPaths w = (Ok r, w')) <->
   (exists res w1 elems w2,
       fetch "https://api.example.com/posts" w = (Ok res, w1) /\
       json res w1 = (Ok (JArr elems), w2) /\
       Forall (fun post => post <> JNull) elems)).
Proof.
  assert (Hnull : forall elems,
             Forall (fun post => post <> JNull) elems \/ In JNull elems).
  { induction elems as [| post rest [IH | IH]].
    - left. constructor.
    - destruct post; try (left; constructor; [discriminate | assumption]).
      right. now left.
    - right. now right. }
  assert (Hbad : forall res w1 posts w2,
             fetch "https://api.example.com/posts" w = (Ok res, w1) ->
             json res w1 = (Ok posts, w2) ->
             (forall elems, posts = JArr elems -> In JNull elems) ->
             exists e, getStaticPaths w = (Throw e, w2) /\ name e = "TypeError").
  { intros res w1 posts w2 Hf Hj Hbad.
    unfold getStaticPaths, bind, lift, ret. rewrite Hf, Hj.
    destruct posts as [| b | n | s | elems | fields]; simpl;
      try (eexists; split; reflexivity).
    rewrite (map_elems_null elems (Hbad elems eq_refl)).
    eexists; split; reflexivity. }
  split; [| split; [| split; [exact Hbad |]]].
  - intros e w1 Hf. unfold getStaticPaths, bind. now rewrite Hf.
  - intros res w1 e w2 Hf Hj. unfold getStaticPaths, bind. now rewrite Hf, Hj.
  - split.
    + intros (r & w' & E).
      destruct (fetch "https://api.example.com/posts" w) as [[res | e] w1] eqn:Hf.
      2:{ unfold getStaticPaths, bind in E. rewrite Hf in E. discriminate. }
      destruct (json res w1) as [[posts | e] w2] eqn:Hj.
      2:{ unfold getStaticPaths, bind in E. rewrite Hf, Hj in E. discriminate. }
      destruct posts as [| b | n | s | elems | fields];
        try (destruct (Hbad res w1 _ w2 eq_refl Hj) as (e & E' & _);
             [intros elems; discriminate | rewrite E in E'; discriminate]).
      destruct (Hnull elems) as [Hall | Hin].
      * now exists res, w1, elems, w2.
      * destruct (Hbad res w1 (JArr elems) w2 eq_refl Hj) as (e & E' & _).
        -- intros elems' Heq. now injection Heq as <-.
        -- rewrite E in E'. discriminate.
    + intros (res & w1 & elems & w2 & Hf & Hj & Hall).
      destruct (getStaticPaths_returns w Hf Hj Hall) as (ps & E & _).
      now exists {| paths := ps; fallback := true |}, w2.
Qed.

End StaticPathsFacts.

Lemma getStaticProps_calls fetched parsed ctx calls :
  snd (StaticProps.getStaticProps (net := NetMock.net_mock fetched parsed)
         ctx calls)
  = (calls ++
       NetMock.CallFetch
         ("https://api.example.com/posts/"
            ++ StaticProps.slug (StaticProps.params ctx)) ::
       match fetched with
       | Ok _ => [NetMock.CallJson]
       | Throw _ => []
       end)%list.
Proof.
  unfold StaticProps.getStaticProps, bind, ret. simpl.
  unfold NetMock.mock_fetch, NetMock.mock_json.
  destruct fetched as [[] | e]; simpl; [| reflexivity].
  destruct parsed; simpl; now rewrite <- app_assoc.
Qed.

(** X4: [getStaticProps] requests the page of its own slug, the slug put
    into the URL as it is.  Against a recording double of the network,
    whatever it answers, the one [fetch] is for
    [https://api.example.com/posts/] followed by [params.slug] unchanged,
    followed by one [json()] unless the fetch threw; and two contexts
    with different slugs never lead to the same recorded calls. *)
Theorem getStaticProps_fetches_slug_url fetched parsed :
  (forall ctx calls,
      snd (StaticProps.getStaticProps (net := NetMock.net_mock fetched parsed)
             ctx calls)
      = (calls ++
           NetMock.CallFetch
             ("https://api.example.com/posts/"
                ++ StaticProps.slug (StaticProps.params ctx)) ::
           match fetched with
           | Ok _ => [NetMock.CallJson]
           | Throw _ => []
           end)%list) /\
  (forall ctx1 ctx2,
      StaticProps.slug (StaticProps.params ctx1)
      <> StaticProps.slug (StaticProps.params ctx2) ->
      snd (StaticProps.getStaticProps (net := NetMock.net_mock fetched parsed)
             ctx1 [])
      <> snd (StaticProps.getStaticProps (net := NetMock.net_mock fetched parsed)
                ctx2 [])).
Proof.
  split; [apply getStaticProps_calls |].
  intros ctx1 ctx2 Hne. rewrite !getStaticProps_calls. simpl.
  intros E. injection E as E. contradiction.
Qed.

Section StaticPropsFacts.

Context {W Reply : Type} {net : Network W Reply}.

Import StaticProps.

(** X5: what [getStaticProps] returns is what the network gave, and it
    throws nothing of its own.  A result carries as [props.post] exactly
    the value [json()] returned for the reply to the slug's URL, with
    [revalidate] 60; an exception that comes out is the one [fetch] or
    [json()] threw, the world as that call left it. *)
Theorem getStaticProps_passes_through ctx w :
  (forall r w',
      getStaticProps ctx w = (Ok r, w') ->
      revalidate r = 60 /\
      exists res w1,
        fetch ("https://api.example.com/posts/" ++ slug (params ctx)) w
          = (Ok res, w1) /\
        json res w1 = (Ok (post (props r)), w')) /\
  (forall e w',
      getStaticProps ctx w = (Throw e, w') ->
      fetch ("https://api.example.com/posts/" ++ slug (params ctx)) w
        = (Throw e, w') \/
      exists res w1,
        fetch ("https://api.example.com/posts/" ++ slug (params ctx)) w
          = (Ok res, w1) /\
        json res w1 = (Throw e, w')).
Proof.
  unfold getStaticProps, bind, ret.
  destruct (fetch _ w) as [[res | e0] w1] eqn:Hf.
  - destruct (json res w1) as [[v | e1] w2] eqn:Hj; split.
    + intros r w' E. injection E as <- <-. split; [reflexivity |].
      now exists res, w1.
    + discriminate.
    + discriminate.
    + intros e w' E. injection E as <- <-. right. now exists res, w1.
  - split; [discriminate |].
    intros e w' E. injection E as <- <-. now left.
Qed.

End StaticPropsFacts.

(* ================================================================== *)
(** ** The README examples at concrete replies *)
(* ================================================================== *)

Lemma getStaticPaths_one_path_per_post_witness :
  exists ps,
    StaticPaths.getStaticPaths
      (net := NetMock.net_mock (Ok tt) (Ok two_posts)) []
    = (Ok {| StaticPaths.paths := ps; StaticPaths.fallback := true |},
       [NetMock.CallFetch "https://api.example.com/posts"; NetMock.CallJson]) /\
    length ps = 2%nat /\
    Forall2 (fun post p =>
               StaticPaths.post_slug post
               = Ok (StaticPaths.slug (StaticPaths.params p)))
      [JObj [("slug", JStr "first"); ("title", JStr "One")];
       JObj [("title", JStr "No slug")]] ps.
Proof.
  apply (@getStaticPaths_one_path_per_post _ _
           (NetMock.net_mock (Ok tt) (Ok two_posts)) [] tt
           [NetMock.CallFetch "https://api.example.com/posts"]
           [JObj [("slug", JStr "first"); ("title", JStr "One")];
            JObj [("title", JStr "No slug")]]
           [NetMock.CallFetch "https://api.example.com/posts"; NetMock.CallJson]).
  - reflexivity.
  - reflexivity.
  - repeat constructor; discriminate.
Defined.

Lemma getStaticPaths_failures_witness :
  StaticPaths.getStaticPaths
    (net := NetMock.net_mock (Throw network_down) (Ok two_posts)) []
  = (Throw network_down, [NetMock.CallFetch "https://api.example.com/posts"]) /\
  exists e,
    StaticPaths.getStaticPaths
      (net := NetMock.net_mock (Ok tt) (Ok (JArr [JNum 1; JNull]))) []
    = (Throw e,
       [NetMock.CallFetch "https://api.example.com/posts"; NetMock.CallJson]) /\
    name e = "TypeError".
Proof.
  split.
  - apply (proj1 (getStaticPaths_failures
                    (net := NetMock.net_mock (Throw network_down) (Ok two_posts))
                    [])).
    reflexivity.
  - apply (proj1 (proj2 (proj2 (getStaticPaths_failures
                    (net := NetMock.net_mock (Ok tt) (Ok (JArr [JNum 1; JNull])))
                    [])))
             tt [NetMock.CallFetch "https://api.example.com/posts"]
             (JArr [JNum 1; JNull])).
    + reflexivity.
    + reflexivity.
    + intros elems E. injection E as <-. simpl. right. now left.
Defined.

Lemma getStaticProps_fetches_slug_url_witness :
  snd (StaticProps.getStaticProps (net := NetMock.net_mock (Ok tt) (Ok JNull))
         {| StaticProps.params := {| StaticProps.slug := "a/b?c" |} |} [])
  <> snd (StaticProps.getStaticProps (net := NetMock.net_mock (Ok tt) (Ok JNull))
            {| StaticProps.params := {| StaticProps.slug := "a" |} |} []).
Proof.
  apply (proj2 (getStaticProps_fetches_slug_url (Ok tt) (Ok JNull))
           {| StaticProps.params := {| StaticProps.slug := "a/b?c" |} |}
           {| StaticProps.params := {| StaticProps.slug := "a" |} |}).
  simpl. discriminate.
Defined.

Lemma getStaticProps_passes_through_witness :
  StaticProps.revalidate
    {| StaticProps.props := {| StaticProps.post := JStr "hello" |};
       StaticProps.revalidate := 60 |} = 60 /\
  exists res w1,
    fetch (Network := NetMock.net_mock (Ok tt) (Ok (JStr "hello")))
      "https://api.example.com/posts/first" [] = (Ok res, w1) /\
    json (Network := NetMock.net_mock (Ok tt) (Ok (JStr "hello"))) res w1
    = (Ok (JStr "hello"),
       [NetMock.CallFetch "https://api.example.com/posts/first";
        NetMock.CallJson]).
Proof.
  apply (proj1 (getStaticProps_passes_through
                  (net := NetMock.net_mock (Ok tt) (Ok (JStr "hello")))
                  {| StaticProps.params := {| StaticProps.slug := "first" |} |}
                  [])
           {| StaticProps.props := {| StaticProps.post := JStr "hello" |};
              StaticProps.revalidate := 60 |}).
  reflexivity.
Defined.
